(** * Global CO2 Budget: the notebook's arithmetic, embedded and verified

    The notebook [notebooks/Global CO2 Budget.ipynb] is a straight-line
    Python 3 program: after the import cell, six code cells that bind
    thirteen names in fourteen assignments and print six formatted lines.
    This file embeds

    - Python's numeric values ([int] as [Z], [float] as IEEE binary64,
      Rocq's primitive [float]), with the coercions and the exceptions of
      the operators the notebook uses ([*], [/], [-], [**]);
    - the ['g'] presentation type of [str.format], on the exact value of
      a binary64 number;
    - the notebook itself, statement by statement, as state transformers
      over a namespace and a standard output,

    and then proves the properties of the balance it computes. *)

From Stdlib Require Import ZArith QArith Lia.
From Stdlib Require Import PrimFloat FloatOps SpecFloat.
From Stdlib Require Import Ascii DecimalString.
From stdpp Require Import base list gmap strings.

Set Default Proof Using "Type".
#[local] Set Warnings "-inexact-float".

(** ** Python values and exceptions *)

(** The two numeric types the notebook manipulates. *)
Inductive value : Type :=
  | VInt (n : Z)
  | VFloat (x : float).

(** The exceptions its operators and calls can raise.  [TypeError] is
    what calling a number raises, as when [print] has been rebound to
    one.  [NotModelled] marks the one operator case whose result is
    computed by the C library ([pow] on floats) and which the notebook
    never reaches. *)
Inductive exn : Type :=
  | NameError (x : string)
  | ZeroDivisionError
  | OverflowError
  | TypeError
  | NotModelled.

(** A computation either returns or raises. *)
Inductive res (A : Type) : Type :=
  | Ok (a : A)
  | Raise (e : exn).
Arguments Ok {A} a.
Arguments Raise {A} e.

#[global] Instance res_ret : MRet res := @Ok.
#[global] Instance res_bind : MBind res := fun A B k m =>
  match m with
  | Ok a => k a
  | Raise e => Raise e
  end.

(** ** Numbers *)

Module PyNum.
#[local] Open Scope Z_scope.

(** [float(n)] for a Python int: the nearest binary64 number, ties to
    even; CPython raises [OverflowError] when that is not finite. *)
Definition float_of_int (n : Z) : res float :=
  match binary_normalize prec emax n 0 false with
  | S754_infinity _ => Raise OverflowError
  | sf => Ok (SF2Prim sf)
  end.

(** The float an operand of a mixed operation is coerced to. *)
Definition to_float (v : value) : res float :=
  match v with
  | VInt n => float_of_int n
  | VFloat x => Ok x
  end.

(** [x == 0.0], true of both signed zeros. *)
Definition is_zero (x : float) : bool := PrimFloat.eqb x 0%float.

(** [a * b] *)
Definition mul (a b : value) : res value :=
  match a, b with
  | VInt m, VInt n => Ok (VInt (m * n))
  | _, _ =>
      x ← to_float a;
      y ← to_float b;
      Ok (VFloat (PrimFloat.mul x y))
  end.

(** [a - b] *)
Definition sub (a b : value) : res value :=
  match a, b with
  | VInt m, VInt n => Ok (VInt (m - n))
  | _, _ =>
      x ← to_float a;
      y ← to_float b;
      Ok (VFloat (PrimFloat.sub x y))
  end.

(** The correctly rounded quotient of two ints, [n] nonzero: the quotient
    is taken with at least 55 significant bits and a sticky last bit, and
    then rounded once. *)
Definition int_true_divide (m n : Z) : res float :=
  let k := Z.max 0 (Z.log2 (Z.abs n) - Z.log2 (Z.abs m) + 56) in
  let a := Z.abs m * 2 ^ k in
  let b := Z.abs n in
  let q := 2 * (a / b) + (if (a mod b =? 0)%Z then 0 else 1) in
  let neg := xorb (m <? 0)%Z (n <? 0)%Z in
  match binary_normalize prec emax (if neg then - q else q) (- k - 1) neg with
  | S754_infinity _ => Raise OverflowError
  | sf => Ok (SF2Prim sf)
  end.

(** [a / b], true division: always a float, [ZeroDivisionError] on a
    zero divisor of either type. *)
Definition div (a b : value) : res value :=
  match a, b with
  | VInt m, VInt n =>
      if (n =? 0)%Z then Raise ZeroDivisionError
      else x ← int_true_divide m n; Ok (VFloat x)
  | _, _ =>
      x ← to_float a;
      y ← to_float b;
      if is_zero y then Raise ZeroDivisionError
      else Ok (VFloat (PrimFloat.div x y))
  end.

(** [a ** b]: exact on ints with a non-negative exponent. *)
Definition pow (a b : value) : res value :=
  match a, b with
  | VInt m, VInt n =>
      if (0 <=? n)%Z then Ok (VInt (m ^ n)) else Raise NotModelled
  | _, _ => Raise NotModelled
  end.

(** The exact rational value of a finite float, in lowest terms. *)
Definition float_to_Q (x : float) : option Q :=
  match Prim2SF x with
  | S754_zero _ => Some 0%Q
  | S754_finite s m e =>
      let z := if s then Z.neg m else Z.pos m in
      Some (Qred (if 0 <=? e then inject_Z (z * 2 ^ e)
                  else Qmake z (Z.to_pos (2 ^ (- e)))))
  | _ => None
  end.

End PyNum.

(** ** Formatting: the ['g'] presentation type *)

Module PyFormat.
#[local] Open Scope Z_scope.

(** The decimal digits of a non-negative integer. *)
Definition digits (n : Z) : string :=
  NilZero.string_of_uint (N.to_uint (Z.to_N n)).

Definition ndigits (n : Z) : Z := Z.of_nat (String.length (digits n)).

(** [n / d] rounded to the nearest integer, ties to the even one
    ([0 <= n], [0 < d]). *)
Definition round_half_even (n d : Z) : Z :=
  let q := n / d in
  match 2 * (n mod d) ?= d with
  | Lt => q
  | Gt => q + 1
  | Eq => if Z.even q then q else q + 1
  end.

(** The decimal exponent of [n / d], for [0 < n] and [0 < d]: the [x]
    with [10^x <= n/d < 10^(x+1)]. *)
Definition decimal_exponent (n d : Z) : Z :=
  if d <=? n then ndigits (n / d) - 1
  else
    let l := ndigits (d / n) in
    if d <=? n * 10 ^ (l - 1) then - (l - 1) else - l.

(** [n / d * 10^e] as a fraction. *)
Definition scale10 (n d e : Z) : Z * Z :=
  if 0 <=? e then (n * 10 ^ e, d) else (n, d * 10 ^ (- e)).

(** The [p] significant digits of [n / d], correctly rounded, with the
    decimal exponent of the rounded value: [(m, x)] stands for
    [m * 10^(x - p + 1)] and [10^(p-1) <= m < 10^p]. *)
Definition sig_digits (p n d : Z) : Z * Z :=
  let x := decimal_exponent n d in
  let '(n', d') := scale10 n d (p - 1 - x) in
  let m := round_half_even n' d' in
  if m =? 10 ^ p then (10 ^ (p - 1), x + 1) else (m, x).

(** Trailing zeros are removed (the format has no ['#'] flag). *)
Fixpoint strip_zeros (s : string) : string :=
  match s with
  | EmptyString => EmptyString
  | String c s' =>
      match strip_zeros s' with
      | EmptyString => if Ascii.eqb c "0"%char then EmptyString else String c EmptyString
      | t => String c t
      end
  end.

Definition zeros (n : Z) : string := String.concat "" (replicate (Z.to_nat n) "0").

(** The exponent is written with a sign and at least two digits. *)
Definition exponent_text (x : Z) : string :=
  let d := digits (Z.abs x) in
  ((if x <? 0 then "-" else "+") +:+ (if Z.abs x <? 10 then "0" else "") +:+ d).

(** A point is written only before a non-empty fraction. *)
Definition with_fraction (int frac : string) : string :=
  match frac with
  | EmptyString => int
  | _ => (int +:+ "." +:+ frac)
  end.

(** The text of the positive [n / d] at precision [p >= 1]: scientific
    notation when the exponent is below [-4] or not below [p], fixed
    notation otherwise. *)
Definition format_positive (p n d : Z) : string :=
  let '(m, x) := sig_digits p n d in
  let ds := digits m in
  if (x <? -4) || (p <=? x) then
    (with_fraction (String.substring 0 1 ds)
       (strip_zeros (String.substring 1 (String.length ds - 1) ds))
     +:+ "e" +:+ exponent_text x)
  else if x <? 0 then
    ("0." +:+ zeros (- x - 1) +:+ strip_zeros ds)
  else
    let k := Z.to_nat (x + 1) in
    with_fraction (String.substring 0 k ds)
      (strip_zeros (String.substring k (String.length ds - k) ds)).

(** [format(x, '.{p}g')]; a precision of 0 is treated as 1. *)
Definition format_g (p : nat) (x : float) : string :=
  let p := Z.max 1 (Z.of_nat p) in
  let sign (s : bool) : string := if s then "-" else "" in
  match Prim2SF x with
  | S754_nan => "nan"
  | S754_infinity s => (sign s +:+ "inf")
  | S754_zero s => (sign s +:+ "0")
  | S754_finite s m e =>
      (sign s +:+
       (if 0 <=? e then format_positive p (Z.pos m * 2 ^ e) 1
        else format_positive p (Z.pos m) (2 ^ (- e))))
  end.

(** The fields of a format specification [[align][width][.precision]g]. *)
Inductive align : Type := AlignLeft | AlignRight.

Record format_spec : Type := FormatSpec {
  fs_align : option align;
  fs_width : option nat;
  fs_precision : option nat
}.

(** Padding with spaces to the minimum width; numbers are right-aligned
    unless the specification says otherwise. *)
Definition pad (spec : format_spec) (s : string) : string :=
  let fill :=
    String.concat "" (replicate (default 0%nat (fs_width spec) - String.length s)%nat " ") in
  match default AlignRight (fs_align spec) with
  | AlignLeft => (s +:+ fill)
  | AlignRight => (fill +:+ s)
  end.

(** [format(v, spec)] for a number; an int is converted to float first.
    The default precision of ['g'] is 6. *)
Definition format_value (spec : format_spec) (v : value) : res string :=
  x ← PyNum.to_float v;
  Ok (pad spec (format_g (default 6%nat (fs_precision spec)) x)).

(** A template with one replacement field, [before{:spec}after]. *)
Record template : Type := Template {
  before : string;
  field : format_spec;
  after : string
}.

(** [t.format(v)] *)
Definition str_format (t : template) (v : value) : res string :=
  s ← format_value (field t) v;
  Ok (before t +:+ s +:+ after t).

End PyFormat.

(** ** Statements *)

(** The interpreter's state: the global namespace and what has been
    written to standard output. *)
Record state : Type := State {
  vars : gmap string value;
  stdout : string
}.

(** An expression reads the namespace and returns a value or raises. *)
Definition expr : Type := gmap string value -> res value.

Definition Name (x : string) : expr := fun ns =>
  match ns !! x with
  | Some v => Ok v
  | None => Raise (NameError x)
  end.

Definition IntLit (n : Z) : expr := fun _ => Ok (VInt n).
Definition FloatLit (x : float) : expr := fun _ => Ok (VFloat x).

(** Operands are evaluated left to right. *)
Definition BinOp (op : value -> value -> res value) (a b : expr) : expr :=
  fun ns => u ← a ns; v ← b ns; op u v.

Declare Scope py_scope.
Delimit Scope py_scope with py.
Bind Scope py_scope with expr.
Notation "a * b" := (BinOp PyNum.mul a b) : py_scope.
Notation "a / b" := (BinOp PyNum.div a b) : py_scope.
Notation "a - b" := (BinOp PyNum.sub a b) : py_scope.
Notation "a ** b" := (BinOp PyNum.pow a b)
  (at level 30, right associativity) : py_scope.

(** The two statement forms of the notebook: [x = e] and
    [print(t.format(e))]. *)
Inductive stmt : Type :=
  | Assign (x : string) (e : expr)
  | Print (t : PyFormat.template) (e : expr).

Definition newline : string := String "010"%char EmptyString.

(** [print] is itself a global name: the call reads it, evaluates its
    argument and then calls what it found.  Unbound in the namespace it
    is the builtin; bound there it is a number, the only values a
    namespace holds, and calling it raises [TypeError]. *)
Definition exec_stmt (c : stmt) (s : state) : res state :=
  match c with
  | Assign x e =>
      v ← e (vars s);
      Ok (State (<[x := v]> (vars s)) (stdout s))
  | Print t e =>
      v ← e (vars s);
      line ← PyFormat.str_format t v;
      match vars s !! "print" with
      | Some _ => Raise TypeError
      | None => Ok (State (vars s) (stdout s +:+ line +:+ newline))
      end
  end.

Fixpoint exec (p : list stmt) (s : state) : res state :=
  match p with
  | [] => Ok s
  | c :: p' => s' ← exec_stmt c s; exec p' s'
  end.

(** The names a statement binds. *)
Definition target (c : stmt) : option string :=
  match c with
  | Assign x _ => Some x
  | Print _ _ => None
  end.

Definition targets (p : list stmt) : list string := omap target p.

(** ** The notebook *)

Section Notebook.
Import PyFormat.
#[local] Open Scope py_scope.

(** [{:8.3g}] and [{:<.2g}] *)
Definition spec_8_3g : format_spec := FormatSpec None (Some 8%nat) (Some 3%nat).
Definition spec_left_2g : format_spec := FormatSpec (Some AlignLeft) None (Some 2%nat).

(** Cell 1, [%matplotlib inline] and [from numpy import *], computes
    nothing: of the names the import binds the notebook reads [pi], the
    float [math.pi]. *)
Definition pi : float := 0x1.921fb54442d18p+1%float.

Definition numpy : gmap string value := {[ "pi" := VFloat pi ]}.

Definition cell2 : list stmt := [
  Assign "mCO2_in" (FloatLit 34.5e9);
  Assign "mCO2_in" (Name "mCO2_in" * IntLit 1000);
  Print (Template "Global CO2 emissions = " spec_8_3g " kg/yr") (Name "mCO2_in")
].

Definition cell3 : list stmt := [
  Assign "nCO2_accum" (FloatLit 2.4e-6);
  Assign "mwAir" (FloatLit 28.97);
  Assign "mwCO2" (FloatLit 44.01);
  Assign "wCO2_accum" (Name "nCO2_accum" * Name "mwCO2" / Name "mwAir");
  Print (Template "Accumulation Rate of CO2 = " spec_8_3g " kg CO2/kg air")
    (Name "wCO2_accum")
].

Definition cell4 : list stmt := [
  Assign "R" (IntLit 6371000);
  Assign "A" (IntLit 4 * Name "pi" * Name "R" ** IntLit 2);
  Assign "g" (FloatLit 9.81);
  Assign "P" (IntLit 101325);
  Assign "mAir" (Name "A" * Name "P" / Name "g");
  Print (Template "Estimated mass of the atmosphere = " spec_8_3g " kg")
    (Name "mAir")
].

Definition cell5 : list stmt := [
  Assign "mCO2_accum" (Name "wCO2_accum" * Name "mAir");
  Print (Template "Change in CO2 = " spec_8_3g " kg CO2/year") (Name "mCO2_accum")
].

Definition cell6 : list stmt := [
  Assign "mCO2_out" (Name "mCO2_in" - Name "mCO2_accum");
  Print (Template "Global CO2 outflow = " spec_8_3g " kg CO2/yr") (Name "mCO2_out")
].

Definition cell7 : list stmt := [
  Assign "fCO2" (Name "mCO2_accum" / Name "mCO2_in");
  Print (Template "Fraction of CO2 retained in the atmosphere = " spec_left_2g " ")
    (Name "fCO2")
].

Definition notebook : list stmt :=
  cell2 ++ cell3 ++ cell4 ++ cell5 ++ cell6 ++ cell7.

(** The state in which cell 2 starts. *)
Definition initial : state := State numpy "".

(** Cell 1 run on any state: the import binds numpy's names over
    whatever the state held under them, and prints nothing. *)
Definition cell1 (s : state) : state := State (numpy ∪ vars s) (stdout s).

(** The state after the first [i] statements. *)
Definition state_at (i : nat) : res state := exec (take i notebook) initial.

End Notebook.

(** ** Reading the run *)

(** The value a name holds after the first [i] statements of a program
    run from [s0]. *)
Definition lookup_after (p : list stmt) (s0 : state) (i : nat) (x : string)
  : res value :=
  s ← exec (take i p) s0; Name x (vars s).

(** The same for the notebook, and when the whole of it has run. *)
Definition value_at (i : nat) (x : string) : res value :=
  lookup_after notebook initial i x.

Definition final_value (x : string) : res value :=
  s ← exec notebook initial; Name x (vars s).

(** Standard output when the notebook has run. *)
Definition final_stdout : res string :=
  s ← exec notebook initial; Ok (stdout s).

(** A computation that returns. *)
Definition is_ok {A : Type} (r : res A) : bool :=
  match r with
  | Ok _ => true
  | Raise _ => false
  end.

(** Lines of text, each ended by a newline. *)
Definition unlines (ls : list string) : string :=
  String.concat "" (map (fun l => l +:+ newline) ls).

(** What the six calls of [print] report: the template and the name
    formatted into it, in the order of the cells. *)
Definition report : list (PyFormat.template * string) := [
  (PyFormat.Template "Global CO2 emissions = " spec_8_3g " kg/yr", "mCO2_in");
  (PyFormat.Template "Accumulation Rate of CO2 = " spec_8_3g " kg CO2/kg air",
     "wCO2_accum");
  (PyFormat.Template "Estimated mass of the atmosphere = " spec_8_3g " kg", "mAir");
  (PyFormat.Template "Change in CO2 = " spec_8_3g " kg CO2/year", "mCO2_accum");
  (PyFormat.Template "Global CO2 outflow = " spec_8_3g " kg CO2/yr", "mCO2_out");
  (PyFormat.Template "Fraction of CO2 retained in the atmosphere = " spec_left_2g " ",
     "fCO2")
].

(** The output stored in the notebook file, cell by cell. *)
Definition recorded_output : list string := [
  "Global CO2 emissions = 3.45e+13 kg/yr";
  "Accumulation Rate of CO2 = 3.65e-06 kg CO2/kg air";
  "Estimated mass of the atmosphere = 5.27e+18 kg";
  "Change in CO2 = 1.92e+13 kg CO2/year";
  "Global CO2 outflow = 1.53e+13 kg CO2/yr";
  "Fraction of CO2 retained in the atmosphere = 0.56 "
].

(** The line a report entry yields from the final values. *)
Definition report_line (r : PyFormat.template * string) : res string :=
  v ← final_value r.2; PyFormat.str_format r.1 v.

(** The state the notebook ends in: the thirteen names it binds, with
    [pi], and the six lines it has printed. *)
Definition final : state :=
  let m_in := (34.5e9 * 1000)%float in
  let w := (2.4e-6 * 44.01 / 28.97)%float in
  let area := (4 * pi * 40589641000000)%float in
  let m_air := (area * 101325 / 9.81)%float in
  let m_accum := (w * m_air)%float in
  State
    (list_to_map [
       ("pi", VFloat pi);
       ("mCO2_in", VFloat m_in);
       ("nCO2_accum", VFloat 2.4e-6);
       ("mwAir", VFloat 28.97);
       ("mwCO2", VFloat 44.01);
       ("wCO2_accum", VFloat w);
       ("R", VInt 6371000);
       ("A", VFloat area);
       ("g", VFloat 9.81);
       ("P", VInt 101325);
       ("mAir", VFloat m_air);
       ("mCO2_accum", VFloat m_accum);
       ("mCO2_out", VFloat (m_in - m_accum));
       ("fCO2", VFloat (m_accum / m_in))
     ])
    (unlines recorded_output).

(** A program is write-once from a state when a name, once bound, holds
    the same value at every later point of the run. *)
Definition write_once (p : list stmt) (s0 : state) : Prop :=
  forall (i j : nat) (x : string) (v : value),
    (i <= j)%nat ->
    lookup_after p s0 i x = Ok v ->
    lookup_after p s0 j x = Ok v.

(** A float is strictly positive. *)
Definition positive_float (x : float) : Prop := PrimFloat.ltb 0 x = true.

(** A float is finite and its exact value lies strictly between two
    rationals. *)
Definition strictly_between (lo hi : Q) (x : float) : Prop :=
  match PyNum.float_to_Q x with
  | Some q => (lo < q)%Q /\ (q < hi)%Q
  | None => False
  end.

(** ** Running in another namespace *)

(** An expression is monotone when binding more names behind the ones it
    has seen does not change the value it returns.  [m ∪ m'] keeps the
    bindings of [m] and adds those of [m'] for the names [m] leaves
    unbound. *)
Definition monotone (e : expr) : Prop :=
  forall (m m' : gmap string value) (v : value),
    e m = Ok v -> e (m ∪ m') = Ok v.

Definition stmt_monotone (c : stmt) : Prop :=
  match c with
  | Assign _ e => monotone e
  | Print _ e => monotone e
  end.

(** * Properties *)

(** Closed goals about the run are settled by running the interpreter. *)
Ltac split_all := repeat match goal with |- _ /\ _ => split end.
Ltac run := vm_compute; reflexivity.

(** ** The interpreter *)

Lemma bind_Ok {A B : Type} (m : res A) (k : A -> res B) (b : B) :
  m ≫= k = Ok b <-> exists a, m = Ok a /\ k a = Ok b.
Proof.
  destruct m as [a|e]; simpl; split.
  - intros H. exists a. split; [reflexivity | exact H].
  - intros (a' & [= <-] & H). exact H.
  - discriminate.
  - intros (a' & [=] & _).
Qed.

Lemma Ok_inj {A : Type} (a b : A) : Ok a = Ok b -> a = b.
Proof. by intros [= ->]. Qed.

Lemma exec_app (p q : list stmt) (s : state) :
  exec (p ++ q) s = exec p s ≫= exec q.
Proof.
  revert s. induction p as [|c p IH]; intros s; simpl; [reflexivity|].
  destruct (exec_stmt c s) as [s'|e]; simpl; [apply IH | reflexivity].
Qed.

(** A statement changes no name but its target, and an assignment writes
    nothing to standard output. *)
Lemma exec_stmt_frame (c : stmt) (s s' : state) (x : string) :
  exec_stmt c s = Ok s' -> target c ≠ Some x -> vars s' !! x = vars s !! x.
Proof.
  destruct c as [y e|t e]; simpl; intros H Hx.
  - apply bind_Ok in H as (v & _ & [= <-]). simpl.
    apply lookup_insert_ne. congruence.
  - apply bind_Ok in H as (v & _ & H).
    apply bind_Ok in H as (line & _ & H).
    destruct (vars s !! "print"); [discriminate H|].
    by apply Ok_inj in H as <-.
Qed.

Lemma exec_frame (p : list stmt) (s s' : state) (x : string) :
  exec p s = Ok s' -> x ∉ targets p -> vars s' !! x = vars s !! x.
Proof.
  revert s. induction p as [|c p IH]; simpl; intros s H Hx.
  - by injection H as <-.
  - apply bind_Ok in H as (s1 & H1 & H2).
    unfold targets in Hx. simpl in Hx.
    rewrite (IH s1 H2).
    + apply (exec_stmt_frame c); [done|].
      intros Hc. rewrite Hc in Hx. apply Hx. left.
    + intros Hin. apply Hx. destruct (target c); [by right | done].
Qed.

(** The run between two points of a program. *)
Lemma exec_between (p : list stmt) (s0 si sj : state) (i j : nat) :
  (i <= j)%nat ->
  exec (take i p) s0 = Ok si ->
  exec (take j p) s0 = Ok sj ->
  exec (take (j - i) (drop i p)) si = Ok sj.
Proof.
  intros Hij Hi Hj.
  rewrite <- (take_drop i (take j p)), take_take, Nat.min_l in Hj by done.
  rewrite exec_app, Hi in Hj. simpl in Hj.
  by rewrite skipn_firstn_comm in Hj.
Qed.

Lemma targets_take (p : list stmt) (n : nat) (x : string) :
  x ∈ targets (take n p) -> x ∈ targets p.
Proof.
  unfold targets. rewrite !list_elem_of_omap.
  intros (c & Hc & Ht). exists c. split; [|done].
  by apply (subseteq_take n).
Qed.

(** A name the rest of the program does not bind keeps its value. *)
Lemma stable_if_not_rebound (p : list stmt) (s0 si sj : state) (i j : nat) (x : string) :
  (i <= j)%nat ->
  exec (take i p) s0 = Ok si ->
  exec (take j p) s0 = Ok sj ->
  x ∉ targets (drop i p) ->
  vars sj !! x = vars si !! x.
Proof.
  intros Hij Hi Hj Hx.
  apply (exec_frame (take (j - i) (drop i p))).
  - by apply (exec_between p s0).
  - intros Hin. apply Hx. by eapply targets_take.
Qed.


Lemma lookup_after_stable (p : list stmt) (s0 : state) (i j : nat) (x : string) (v : value) :
  (i <= j)%nat ->
  is_ok (exec (take j p) s0) = true ->
  x ∉ targets (drop i p) ->
  lookup_after p s0 i x = Ok v ->
  lookup_after p s0 j x = Ok v.
Proof.
  unfold lookup_after. intros Hij Hj Hx Hv.
  apply bind_Ok in Hv as (si & Hi & Hv).
  destruct (exec (take j p) s0) as [sj|e] eqn:Ej; [|discriminate Hj].
  simpl. unfold Name in *.
  by rewrite (stable_if_not_rebound p s0 si sj i j x).
Qed.

(** ** The constants *)

(** Each float literal of the notebook denotes the binary64 number
    nearest to its decimal, and [pi] is the one nearest to
    3.141592653589793. *)
Lemma literals_correctly_rounded :
  PyNum.float_of_int 34500000000 = Ok 34.5e9%float /\
  PyNum.int_true_divide 24 10000000 = Ok 2.4e-6%float /\
  PyNum.int_true_divide 2897 100 = Ok 28.97%float /\
  PyNum.int_true_divide 4401 100 = Ok 44.01%float /\
  PyNum.int_true_divide 981 100 = Ok 9.81%float /\
  PyNum.int_true_divide 3141592653589793 (10 ^ 15) = Ok pi.
Proof. split_all; run. Qed.

(** Every prefix of the notebook runs to a state. *)
Lemma prefix_runs (i : nat) : is_ok (state_at i) = true.
Proof.
  unfold state_at.
  destruct (decide (20 <= i)%nat) as [Hge|Hlt].
  - rewrite take_ge by exact Hge. run.
  - do 20 (destruct i as [|i]; [run|]). lia.
Qed.

(** The run of the whole notebook. *)
Lemma notebook_final : exec notebook initial = Ok final.
Proof. run. Qed.

(** ** The balance *)

(** C1: the computed outflow is the inflow minus the accumulation, the
    accumulation is the mass of the atmosphere times the mass-fraction
    growth rate, and that rate is the mole-fraction growth rate times
    the molar mass of CO2 over the molar mass of air: with the values the
    notebook binds, [mCO2_out = mCO2_in - mAir * (nCO2_accum * mwCO2 / mwAir)]
    in binary64 arithmetic. *)
Theorem outflow_is_inflow_minus_accumulation :
  exists m_in m_air n_accum mw_co2 mw_air : float,
    final_value "mCO2_in" = Ok (VFloat m_in) /\
    final_value "mAir" = Ok (VFloat m_air) /\
    final_value "nCO2_accum" = Ok (VFloat n_accum) /\
    final_value "mwCO2" = Ok (VFloat mw_co2) /\
    final_value "mwAir" = Ok (VFloat mw_air) /\
    final_value "wCO2_accum" = Ok (VFloat (n_accum * mw_co2 / mw_air)) /\
    final_value "mCO2_accum" = Ok (VFloat (m_air * (n_accum * mw_co2 / mw_air))) /\
    final_value "mCO2_out"
      = Ok (VFloat (m_in - m_air * (n_accum * mw_co2 / mw_air))).
Proof.
  exists (34.5e9 * 1000)%float,
         (4 * pi * 40589641000000 * 101325 / 9.81)%float,
         2.4e-6%float, 44.01%float, 28.97%float.
  split_all; run.
Qed.

(** C2: the inflow is 34.5e9 tonnes a year, 3.45e13 kg a year exactly;
    the outflow is the inflow minus the accumulation, and it is strictly
    below the inflow, the accumulation being strictly positive. *)
Theorem outflow_below_inflow :
  exists m_in m_accum m_out : float,
    final_value "mCO2_in" = Ok (VFloat m_in) /\
    m_in = (34.5e9 * 1000)%float /\
    PyNum.float_to_Q m_in = Some (inject_Z (345 * 10 ^ 8 * 1000)) /\
    final_value "mCO2_accum" = Ok (VFloat m_accum) /\
    final_value "mCO2_out" = Ok (VFloat m_out) /\
    m_out = (m_in - m_accum)%float /\
    positive_float m_accum /\
    PrimFloat.ltb m_out m_in = true.
Proof.
  pose (m_in := (34.5e9 * 1000)%float).
  pose (m_accum :=
    (2.4e-6 * 44.01 / 28.97 * (4 * pi * 40589641000000 * 101325 / 9.81))%float).
  exists m_in, m_accum, (m_in - m_accum)%float.
  split_all; run.
Qed.

(** C3: the retained fraction is the accumulation over the inflow; it
    rounds to 0.56 at two significant figures (its exact value lies
    between 0.555 and 0.565, and [format(fCO2, '.2g')] is ["0.56"]), and
    it lies strictly between 0 and 1. *)
Theorem retained_fraction :
  exists m_accum m_in f : float,
    final_value "mCO2_accum" = Ok (VFloat m_accum) /\
    final_value "mCO2_in" = Ok (VFloat m_in) /\
    final_value "fCO2" = Ok (VFloat f) /\
    f = (m_accum / m_in)%float /\
    strictly_between (555 # 1000) (565 # 1000) f /\
    PyFormat.format_g 2 f = "0.56" /\
    PrimFloat.ltb 0 f = true /\ PrimFloat.ltb f 1 = true.
Proof.
  pose (m_in := (34.5e9 * 1000)%float).
  pose (m_accum :=
    (2.4e-6 * 44.01 / 28.97 * (4 * pi * 40589641000000 * 101325 / 9.81))%float).
  exists m_accum, m_in, (m_accum / m_in)%float.
  split_all; try run. vm_compute. split; reflexivity.
Qed.

(** C4: with a mole-fraction growth of 2.4e-6 a year and the molar masses
    44.01 and 28.97, the mass-fraction growth [nCO2_accum * mwCO2 / mwAir]
    rounds to 3.65e-06 at three significant figures. *)
Theorem mass_fraction_growth :
  exists w : float,
    final_value "nCO2_accum" = Ok (VFloat 2.4e-6) /\
    final_value "mwCO2" = Ok (VFloat 44.01) /\
    final_value "mwAir" = Ok (VFloat 28.97) /\
    final_value "wCO2_accum" = Ok (VFloat w) /\
    w = (2.4e-6 * 44.01 / 28.97)%float /\
    strictly_between (3645 # 1000000000) (3655 # 1000000000) w /\
    PyFormat.format_g 3 w = "3.65e-06".
Proof.
  exists (2.4e-6 * 44.01 / 28.97)%float.
  split_all; try run. vm_compute. split; reflexivity.
Qed.

(** C5: the mass of the atmosphere, [(4 * pi * R**2) * P / g] with
    R = 6371000, P = 101325 and g = 9.81, rounds to 5.27e+18 at three
    significant figures. *)
Theorem atmosphere_mass :
  exists r2 p m : float,
    final_value "R" = Ok (VInt 6371000) /\
    final_value "P" = Ok (VInt 101325) /\
    final_value "g" = Ok (VFloat 9.81) /\
    PyNum.float_of_int (6371000 ^ 2) = Ok r2 /\
    PyNum.float_of_int 101325 = Ok p /\
    final_value "A" = Ok (VFloat (4 * pi * r2)) /\
    final_value "mAir" = Ok (VFloat m) /\
    m = (4 * pi * r2 * p / 9.81)%float /\
    strictly_between (inject_Z (5265 * 10 ^ 15)) (inject_Z (5275 * 10 ^ 15)) m /\
    PyFormat.format_g 3 m = "5.27e+18".
Proof.
  exists 40589641000000%float, 101325%float,
         (4 * pi * 40589641000000 * 101325 / 9.81)%float.
  split_all; try run. vm_compute. split; reflexivity.
Qed.

(** ** Assignments *)

(** A name that is bound after [i] statements is not a target of the
    statements that follow, except [mCO2_in] between its two
    assignments. *)
Lemma bound_not_rebound (i : nat) (x : string) (v : value) :
  value_at i x = Ok v ->
  (x = "mCO2_in" -> (2 <= i)%nat) ->
  x ∉ targets (drop i notebook).
Proof.
  intros Hv Hm Hin.
  destruct (decide (20 <= i)%nat) as [Hge|Hlt].
  { rewrite drop_ge in Hin by exact Hge. by apply elem_of_nil in Hin. }
  do 20 (destruct i as [|i];
    [ match type of Hin with
      | _ ∈ ?l => let l' := eval vm_compute in l in change (x ∈ l') in Hin
      end;
      repeat (apply elem_of_cons in Hin as [-> | Hin]);
      first [ by apply elem_of_nil in Hin
            | by vm_compute in Hv
            | specialize (Hm eq_refl); lia ]
    | ]).
  lia.
Qed.

(** C6, as stated, fails: after the first statement [mCO2_in] holds
    34.5e9 (tonnes a year) and after the second 3.45e13 (kg a year). *)
Lemma mCO2_in_is_reassigned : ~ write_once notebook initial.
Proof.
  intros H.
  assert (lookup_after notebook initial 1 "mCO2_in" = Ok (VFloat 34.5e9)) as V1
    by run.
  apply (H 1%nat 2%nat) in V1; [|lia].
  apply (f_equal (fun r => match r with
                           | Ok (VFloat y) => PrimFloat.ltb 34.5e9 y
                           | _ => false
                           end)) in V1.
  vm_compute in V1. discriminate V1.
Qed.

(** C6, amended: the first two statements both assign [mCO2_in], no
    other name is assigned twice, and a bound name holds the same value
    at every later point of the run, [mCO2_in] from its second assignment
    on. *)
Theorem write_once_after_unit_conversion :
  targets (take 2 notebook) = ["mCO2_in"; "mCO2_in"] /\
  NoDup (targets (drop 1 notebook)) /\
  forall (i j : nat) (x : string) (v : value),
    (i <= j)%nat ->
    (x = "mCO2_in" -> (2 <= i)%nat) ->
    value_at i x = Ok v ->
    value_at j x = Ok v.
Proof.
  split; [reflexivity|]. split.
  - apply (bool_decide_unpack _). run.
  - intros i j x v Hij Hm Hv.
    apply (lookup_after_stable notebook initial i j); try done.
    + apply prefix_runs.
    + by apply (bound_not_rebound i x v).
Qed.

(** [mCO2_in] still holds 3.45e13 when the notebook ends. *)
Lemma write_once_after_unit_conversion_witness :
  value_at 20 "mCO2_in" = Ok (VFloat 3.45e13).
Proof.
  apply (proj2 (proj2 write_once_after_unit_conversion) 2%nat 20%nat).
  - lia.
  - intros _. lia.
  - vm_compute. reflexivity.
Defined.

(** ** Failures *)

(** C7: no statement raises: every prefix of the notebook runs to a
    state, and where each of the three divisions is evaluated (the
    statements that bind [wCO2_accum], [mAir] and [fCO2]) the divisor
    ([mwAir], [g], [mCO2_in]) is a nonzero float. *)
Theorem no_runtime_failure :
  (forall i : nat, exists s, state_at i = Ok s) /\
  exists mw_air g m_in : float,
    notebook !! 6%nat ≫= target = Some "wCO2_accum" /\
    value_at 6 "mwAir" = Ok (VFloat mw_air) /\ PyNum.is_zero mw_air = false /\
    notebook !! 12%nat ≫= target = Some "mAir" /\
    value_at 12 "g" = Ok (VFloat g) /\ PyNum.is_zero g = false /\
    notebook !! 18%nat ≫= target = Some "fCO2" /\
    value_at 18 "mCO2_in" = Ok (VFloat m_in) /\ PyNum.is_zero m_in = false.
Proof.
  split.
  - intros i. pose proof (prefix_runs i) as H.
    destruct (state_at i) as [s|e]; [by exists s | discriminate H].
  - exists 28.97%float, 9.81%float, (34.5e9 * 1000)%float.
    split_all; run.
Qed.

(** ** Output *)

(** C8: the run writes six lines to standard output and nothing else:
    the emissions ([mCO2_in]), the accumulation rate ([wCO2_accum]), the
    mass of the atmosphere ([mAir]), the change in CO2 ([mCO2_accum]),
    the outflow ([mCO2_out]) and the retained fraction ([fCO2]), in this
    order, each formatted by its template; the text is the one stored in
    the notebook. *)
Theorem printed_output :
  final_stdout = Ok (unlines recorded_output) /\
  length recorded_output = 6%nat /\
  report_line <$> report = Ok <$> recorded_output /\
  report.*2 = ["mCO2_in"; "wCO2_accum"; "mAir"; "mCO2_accum"; "mCO2_out"; "fCO2"].
Proof. split_all; run. Qed.

(** ** Signs *)

(** C10: the six computed quantities are strictly positive. *)
Theorem all_quantities_positive :
  Forall (fun x => exists f, final_value x = Ok (VFloat f) /\ positive_float f)
    ["mCO2_in"; "wCO2_accum"; "mAir"; "mCO2_accum"; "mCO2_out"; "fCO2"].
Proof.
  pose (m_in := (34.5e9 * 1000)%float).
  pose (w := (2.4e-6 * 44.01 / 28.97)%float).
  pose (m_air := (4 * pi * 40589641000000 * 101325 / 9.81)%float).
  pose (m_accum := (w * m_air)%float).
  repeat apply Forall_cons_2; [..|apply Forall_nil_2].
  - exists m_in. split; run.
  - exists w. split; run.
  - exists m_air. split; run.
  - exists m_accum. split; run.
  - exists (m_in - m_accum)%float. split; run.
  - exists (m_accum / m_in)%float. split; run.
Qed.

(** * Runs from other kernel states *)

(** ** Strings *)

Lemma string_app_assoc (a b c : string) : (a +:+ b) +:+ c = a +:+ (b +:+ c).
Proof.
  induction a as [|x a IH]; [reflexivity|].
  change (String x ((a +:+ b) +:+ c) = String x (a +:+ (b +:+ c))).
  by rewrite IH.
Qed.

Lemma string_app_empty_r (a : string) : a +:+ "" = a.
Proof.
  induction a as [|x a IH]; [reflexivity|].
  change (String x (a +:+ "") = String x a). by rewrite IH.
Qed.

(** ** Expressions and statements over a larger namespace *)

Lemma monotone_Name (x : string) : monotone (Name x).
Proof.
  intros m m' v. unfold Name.
  destruct (m !! x) as [u|] eqn:Hx; [|discriminate].
  intros [= <-]. by rewrite (lookup_union_Some_l m m' x u Hx).
Qed.

Lemma monotone_IntLit (n : Z) : monotone (IntLit n).
Proof. by intros m m' v. Qed.

Lemma monotone_FloatLit (x : float) : monotone (FloatLit x).
Proof. by intros m m' v. Qed.

Lemma monotone_BinOp (op : value -> value -> res value) (a b : expr) :
  monotone a -> monotone b -> monotone (BinOp op a b).
Proof.
  intros Ha Hb m m' v. unfold BinOp. intros H.
  apply bind_Ok in H as (u & Hu & H).
  apply bind_Ok in H as (w & Hw & H).
  by rewrite (Ha m m' u Hu), (Hb m m' w Hw).
Qed.

Lemma notebook_monotone : Forall stmt_monotone notebook.
Proof.
  repeat apply Forall_cons_2; try apply Forall_nil_2; simpl;
    repeat first [ apply monotone_BinOp | apply monotone_Name
                 | apply monotone_IntLit | apply monotone_FloatLit ].
Qed.

(** A run of monotone statements can be replayed over any namespace that
    extends the one it started from and leaves [print] unbound, on top
    of any earlier output: it binds the same values, leaves the added
    names alone and appends the same text. *)
Lemma exec_extend (p : list stmt) :
  Forall stmt_monotone p ->
  forall s s1 : state,
    exec p s = Ok s1 ->
    exists out : string,
      stdout s1 = stdout s +:+ out /\
      forall (m' : gmap string value) (o' : string),
        m' !! "print" = None ->
        exec p (State (vars s ∪ m') o') = Ok (State (vars s1 ∪ m') (o' +:+ out)).
Proof.
  induction 1 as [|c p Hc _ IH]; intros s s1 H; simpl in H.
  - apply Ok_inj in H as <-. exists "". split.
    + by rewrite string_app_empty_r.
    + intros m' o' _. simpl. by rewrite string_app_empty_r.
  - apply bind_Ok in H as (s' & Hs' & H).
    destruct (IH s' s1 H) as (out & Hout & Hrun).
    destruct c as [x e|t e]; simpl in Hc, Hs'.
    + apply bind_Ok in Hs' as (v & Hv & Hs'). apply Ok_inj in Hs' as <-.
      simpl in *. exists out. split; [exact Hout|].
      intros m' o' Hp. rewrite (Hc _ m' _ Hv). simpl.
      rewrite insert_union_l. by apply Hrun.
    + apply bind_Ok in Hs' as (v & Hv & Hs').
      apply bind_Ok in Hs' as (line & Hl & Hs').
      destruct (vars s !! "print") eqn:Hprint; [discriminate Hs'|].
      apply Ok_inj in Hs' as <-.
      simpl in *. exists ((line +:+ newline) +:+ out). split.
      * by rewrite Hout, string_app_assoc.
      * intros m' o' Hp. rewrite (Hc _ m' _ Hv). simpl. rewrite Hl. simpl.
        rewrite (lookup_union_None_2 _ _ _ Hprint Hp).
        rewrite <- (string_app_assoc o' (line +:+ newline) out). by apply Hrun.
Qed.

Ltac solve_monotone :=
  repeat apply Forall_cons_2; try apply Forall_nil_2; simpl;
  repeat first [ apply monotone_BinOp | apply monotone_Name
               | apply monotone_IntLit | apply monotone_FloatLit ].

(** The notebook over a namespace that holds numpy's [pi] and leaves
    [print] to the builtin. *)
Lemma notebook_over (m : gmap string value) (o : string) :
  m !! "pi" = Some (VFloat pi) ->
  m !! "print" = None ->
  exec notebook (State m o) = Ok (State (vars final ∪ m) (o +:+ stdout final)).
Proof.
  intros Hpi Hprint.
  destruct (exec_extend notebook notebook_monotone initial final notebook_final)
    as (out & Hout & Hrun).
  change (stdout final = out) in Hout. subst out.
  specialize (Hrun m o Hprint).
  change (vars initial) with ({["pi" := VFloat pi]} : gmap string value) in Hrun.
  by rewrite <- insert_union_singleton_l, (insert_id m "pi" _ Hpi) in Hrun.
Qed.

(** Cells 2 and 3 over any namespace that leaves [print] to the builtin:
    they read no other name they have not bound themselves. *)
Lemma cells_2_3_over (m : gmap string value) (o : string) :
  m !! "print" = None ->
  exists (m23 : gmap string value) (out : string),
    m23 !! "pi" = None /\
    exec (cell2 ++ cell3) (State m o) = Ok (State (m23 ∪ m) (o +:+ out)).
Proof.
  intros Hprint.
  assert (Forall stmt_monotone (cell2 ++ cell3)) as Hmono by solve_monotone.
  destruct (exec (cell2 ++ cell3) (State ∅ "")) as [s23|e] eqn:H23;
    [|vm_compute in H23; discriminate H23].
  destruct (exec_extend _ Hmono _ _ H23) as (out & _ & Hrun).
  exists (vars s23), out. split.
  - vm_compute in H23. apply Ok_inj in H23 as <-. vm_compute. reflexivity.
  - specialize (Hrun m o Hprint). simpl in Hrun.
    by rewrite (left_id_L ∅ (∪)) in Hrun.
Qed.

(** One statement at a time. *)
Lemma exec_assign_ok (x : string) (e : expr) (p : list stmt) (s : state) (v : value) :
  e (vars s) = Ok v ->
  exec (Assign x e :: p) s = exec p (State (<[x := v]> (vars s)) (stdout s)).
Proof. intros H. simpl. by rewrite H. Qed.

Lemma exec_assign_raise (x : string) (e : expr) (p : list stmt) (s : state) (err : exn) :
  e (vars s) = Raise err ->
  exec (Assign x e :: p) s = Raise err.
Proof. intros H. simpl. by rewrite H. Qed.

Lemma exec_print_ok (t : PyFormat.template) (e : expr) (p : list stmt)
    (s : state) (v : value) (line : string) :
  e (vars s) = Ok v ->
  PyFormat.str_format t v = Ok line ->
  vars s !! "print" = None ->
  exec (Print t e :: p) s = exec p (State (vars s) (stdout s +:+ line +:+ newline)).
Proof. intros H Hl Hp. simpl. rewrite H. simpl. rewrite Hl. simpl. by rewrite Hp. Qed.

Lemma exec_print_shadowed (t : PyFormat.template) (e : expr) (p : list stmt)
    (s : state) (v w : value) (line : string) :
  e (vars s) = Ok v ->
  PyFormat.str_format t v = Ok line ->
  vars s !! "print" = Some w ->
  exec (Print t e :: p) s = Raise TypeError.
Proof. intros H Hl Hp. simpl. rewrite H. simpl. rewrite Hl. simpl. by rewrite Hp. Qed.

(** With [print] rebound to a number, cell 2 binds [mCO2_in] and then
    fails at its call of [print]. *)
Lemma cell2_shadowed_print (s : state) (w : value) (rest : list stmt) :
  vars s !! "print" = Some w ->
  exec (cell2 ++ rest) s = Raise TypeError.
Proof.
  intros Hp. unfold cell2. cbn [app].
  rewrite (exec_assign_ok _ _ _ _ (VFloat 34.5e9)) by reflexivity.
  rewrite (exec_assign_ok _ _ _ _ (VFloat 3.45e13)).
  2:{ cbn [vars]. unfold BinOp, Name, IntLit. rewrite lookup_insert_eq.
      vm_compute. reflexivity. }
  apply (exec_print_shadowed _ _ _ _ (VFloat 3.45e13) w
           "Global CO2 emissions = 3.45e+13 kg/yr").
  - cbn [vars]. unfold Name. by rewrite lookup_insert_eq.
  - vm_compute. reflexivity.
  - cbn [vars]. rewrite !lookup_insert_ne by done. exact Hp.
Qed.

(** ** Determinism *)

(** C9: the notebook takes no input.  Run after cell 1 from any two
    kernel states, whatever numbers they bind and whatever they have
    printed, provided [print] is the builtin in both, the two runs
    complete, bind the same value to each of [mCO2_in], [wCO2_accum],
    [mAir], [mCO2_accum], [mCO2_out] and [fCO2], and append the same
    text to standard output. *)
Theorem notebook_takes_no_input (s1 s2 : state) :
  vars s1 !! "print" = None ->
  vars s2 !! "print" = None ->
  exists (r1 r2 : state) (out : string),
    exec notebook (cell1 s1) = Ok r1 /\
    exec notebook (cell1 s2) = Ok r2 /\
    Forall (fun x => exists v, vars r1 !! x = Some v /\ vars r2 !! x = Some v)
      ["mCO2_in"; "wCO2_accum"; "mAir"; "mCO2_accum"; "mCO2_out"; "fCO2"] /\
    stdout r1 = stdout s1 +:+ out /\
    stdout r2 = stdout s2 +:+ out.
Proof.
  intros Hp1 Hp2.
  assert (forall s, vars s !! "print" = None ->
            exec notebook (cell1 s)
            = Ok (State (vars final ∪ (numpy ∪ vars s)) (stdout s +:+ stdout final)))
    as Hrun.
  { intros s Hp. apply notebook_over.
    - by apply lookup_union_Some_l.
    - by apply lookup_union_None_2. }
  eexists _, _, (stdout final).
  split; [exact (Hrun s1 Hp1)|]. split; [exact (Hrun s2 Hp2)|].
  split; [|split; reflexivity].
  repeat apply Forall_cons_2; [..|apply Forall_nil_2];
    match goal with
    | |- exists v, _ !! ?x = _ /\ _ =>
        destruct (vars final !! x) as [v|] eqn:E;
          [|vm_compute in E; discriminate E];
        exists v; split; apply lookup_union_Some_l; exact E
    end.
Qed.

(** A fresh kernel against one that holds a stale inflow, a rebound [pi]
    and earlier output. *)
Lemma notebook_takes_no_input_witness :
  exists (r1 r2 : state) (out : string),
    exec notebook (cell1 (State ∅ "")) = Ok r1 /\
    exec notebook
      (cell1 (State (<["mCO2_in" := VInt 7]> {["pi" := VInt 3]}) "earlier output"))
    = Ok r2 /\
    Forall (fun x => exists v, vars r1 !! x = Some v /\ vars r2 !! x = Some v)
      ["mCO2_in"; "wCO2_accum"; "mAir"; "mCO2_accum"; "mCO2_out"; "fCO2"] /\
    stdout r1 = "" +:+ out /\
    stdout r2 = "earlier output" +:+ out.
Proof.
  apply (notebook_takes_no_input (State ∅ "")
           (State (<["mCO2_in" := VInt 7]> {["pi" := VInt 3]}) "earlier output"));
    vm_compute; reflexivity.
Defined.

(** The property is not one of every program: without its first
    statement the notebook starts at [mCO2_in = mCO2_in*1000] and what
    it computes depends on the inflow the kernel holds. *)
Lemma unit_conversion_alone_reads_the_kernel :
  (s ← exec (drop 1 notebook) (cell1 (State {["mCO2_in" := VFloat 1]} ""));
   Name "mCO2_in" (vars s)) = Ok (VFloat 1000) /\
  (s ← exec (drop 1 notebook) (cell1 (State {["mCO2_in" := VFloat 2]} ""));
   Name "mCO2_in" (vars s)) = Ok (VFloat 2000).
Proof. split; vm_compute; reflexivity. Qed.

(** ** Stale and missing names *)

(** X1: Run in any kernel state that holds numpy's [pi] and leaves
    [print] to the builtin, whatever other numbers are bound and whatever
    was printed before, the notebook binds the thirteen values of
    [final], leaves every other name as it was and appends the six
    lines. *)
Theorem notebook_in_any_namespace (s : state) :
  vars s !! "pi" = Some (VFloat pi) ->
  vars s !! "print" = None ->
  exec notebook s = Ok (State (vars final ∪ vars s) (stdout s +:+ stdout final)).
Proof. destruct s as [m o]. apply notebook_over. Qed.

(** A kernel that holds stale values of [mCO2_in] and [fCO2] and an
    unrelated name. *)
Lemma notebook_in_any_namespace_witness :
  exec notebook
    (State (<["mCO2_in" := VInt 7]> (<["fCO2" := VFloat 2]>
             (<["x" := VInt 1]> numpy))) "earlier output")
  = Ok (State (<["x" := VInt 1]> (vars final))
              ("earlier output" +:+ stdout final)).
Proof.
  rewrite notebook_in_any_namespace; [|vm_compute; reflexivity ..].
  vm_compute. reflexivity.
Defined.

(** X2: Running the notebook again changes no binding: the namespace it
    leaves is a fixed point, and the second run prints the same six
    lines again. *)
Theorem rerun_keeps_namespace (s s1 : state) :
  vars s !! "pi" = Some (VFloat pi) ->
  exec notebook s = Ok s1 ->
  exec notebook s1 = Ok (State (vars s1) (stdout s1 +:+ stdout final)).
Proof.
  destruct s as [m o]. intros Hpi H.
  assert (m !! "print" = None) as Hprint.
  { destruct (m !! "print") as [w|] eqn:Hw; [|reflexivity].
    change notebook with (cell2 ++ cell3 ++ cell4 ++ cell5 ++ cell6 ++ cell7) in H.
    rewrite (cell2_shadowed_print (State m o) w) in H by exact Hw.
    discriminate H. }
  rewrite (notebook_over m o Hpi Hprint) in H. apply Ok_inj in H as <-.
  rewrite notebook_over.
  - simpl. by rewrite (assoc_L (∪)), (idemp_L (∪)).
  - apply lookup_union_Some_l. vm_compute. reflexivity.
  - apply lookup_union_None_2; [vm_compute; reflexivity | exact Hprint].
Qed.

Lemma rerun_keeps_namespace_witness :
  exec notebook final = Ok (State (vars final) (stdout final +:+ stdout final)).
Proof.
  apply (rerun_keeps_namespace initial final).
  - vm_compute. reflexivity.
  - vm_compute. reflexivity.
Defined.

(** Cell 4 stops at [A = 4*pi*R**2] when [pi] is not bound. *)
Lemma cell4_needs_pi (s : state) (rest : list stmt) :
  vars s !! "pi" = None ->
  exec (cell4 ++ rest) s = Raise (NameError "pi").
Proof.
  intros Hpi. unfold cell4. cbn [app].
  rewrite (exec_assign_ok _ _ _ _ (VInt 6371000)) by reflexivity.
  apply exec_assign_raise. cbn [vars].
  unfold BinOp, IntLit, Name.
  rewrite (lookup_insert_ne _ "R" "pi") by done. by rewrite Hpi.
Qed.

(** X3: Without cell 1 the notebook fails.  On a state that binds no
    [pi] and leaves [print] to the builtin, cells 2 and 3 run, reading no
    other name they have not bound, and cell 4 raises [NameError] for
    [pi]. *)
Theorem import_is_required (s : state) :
  vars s !! "pi" = None ->
  vars s !! "print" = None ->
  is_ok (exec (cell2 ++ cell3) s) = true /\
  exec notebook s = Raise (NameError "pi").
Proof.
  intros Hpi Hprint. destruct s as [m o].
  destruct (cells_2_3_over m o Hprint) as (m23 & out & H23 & Hrun).
  split; [by rewrite Hrun|].
  change notebook with (cell2 ++ cell3 ++ cell4 ++ cell5 ++ cell6 ++ cell7).
  rewrite (app_assoc cell2 cell3), exec_app, Hrun.
  apply cell4_needs_pi. simpl.
  apply lookup_union_None_2; [exact H23 | exact Hpi].
Qed.

(** A kernel restarted and run from cell 2. *)
Lemma import_is_required_witness :
  is_ok (exec (cell2 ++ cell3) (State ∅ "")) = true /\
  exec notebook (State ∅ "") = Raise (NameError "pi").
Proof. apply import_is_required; vm_compute; reflexivity. Defined.

(** X4: Cell 2 starts from the literal, so it can be run again.  From
    any state that leaves [print] to the builtin it binds [mCO2_in] to
    3.45e13 kg a year, whatever the name held (the inflow is not
    multiplied by 1000 a second time), changes no other name and prints
    its line; [print] is the one name it reads from the state, and with
    [print] rebound to a number the call raises [TypeError]. *)
Theorem cell2_rerunnable (s : state) :
  exec cell2 s =
    match vars s !! "print" with
    | Some _ => Raise TypeError
    | None =>
        Ok (State (<["mCO2_in" := VFloat 3.45e13]> (vars s))
              (stdout s +:+ "Global CO2 emissions = 3.45e+13 kg/yr" +:+ newline))
    end.
Proof.
  destruct (vars s !! "print") as [w|] eqn:Hprint.
  { rewrite <- (app_nil_r cell2). by apply (cell2_shadowed_print s w). }
  assert (Forall stmt_monotone cell2) as Hmono by solve_monotone.
  assert (exec cell2 (State ∅ "")
          = Ok (State {["mCO2_in" := VFloat 3.45e13]}
                  ("Global CO2 emissions = 3.45e+13 kg/yr" +:+ newline))) as H
    by (vm_compute; reflexivity).
  destruct (exec_extend _ Hmono _ _ H) as (out & Hout & Hrun).
  change ("Global CO2 emissions = 3.45e+13 kg/yr" +:+ newline = out) in Hout.
  subst out. destruct s as [m o]. specialize (Hrun m o Hprint).
  change (vars (State ∅ "")) with (∅ : gmap string value) in Hrun.
  rewrite (left_id_L ∅ (∪)) in Hrun. rewrite Hrun. cbn [vars stdout].
  by rewrite <- insert_union_singleton_l.
Qed.

(** ** Division by a zero inflow *)

(** X5: Cell 7 on any state that binds the accumulation and the inflow
    to floats.  A zero inflow (of either sign) raises
    [ZeroDivisionError].  Any other inflow binds [fCO2] to the quotient;
    then, with [print] the builtin, the cell prints it at two
    significant digits with no padding, and with [print] rebound to a
    number the call raises [TypeError]. *)
Theorem cell7_divides_by_inflow (s : state) (a z : float) :
  vars s !! "mCO2_accum" = Some (VFloat a) ->
  vars s !! "mCO2_in" = Some (VFloat z) ->
  exec cell7 s =
    if PyNum.is_zero z then Raise ZeroDivisionError
    else match vars s !! "print" with
         | Some _ => Raise TypeError
         | None =>
             Ok (State (<["fCO2" := VFloat (a / z)]> (vars s))
                   (stdout s
                    +:+ ("Fraction of CO2 retained in the atmosphere = "
                         +:+ PyFormat.format_g 2 (a / z) +:+ " ")
                    +:+ newline))
         end.
Proof.
  intros Ha Hz. unfold cell7.
  assert (He : (Name "mCO2_accum" / Name "mCO2_in")%py (vars s)
               = if PyNum.is_zero z then Raise ZeroDivisionError
                 else Ok (VFloat (a / z))).
  { unfold BinOp, Name. rewrite Ha, Hz. simpl. by destruct (PyNum.is_zero z). }
  assert (Hl : PyFormat.str_format
                 (PyFormat.Template "Fraction of CO2 retained in the atmosphere = "
                    spec_left_2g " ") (VFloat (a / z))
               = Ok ("Fraction of CO2 retained in the atmosphere = "
                     +:+ PyFormat.format_g 2 (a / z) +:+ " ")).
  { unfold PyFormat.str_format, PyFormat.format_value. simpl.
    unfold PyFormat.pad. simpl. by rewrite string_app_empty_r. }
  destruct (PyNum.is_zero z).
  - by apply exec_assign_raise.
  - rewrite (exec_assign_ok _ _ _ _ _ He).
    assert (Hv : Name "fCO2" (<["fCO2" := VFloat (a / z)]> (vars s))
                 = Ok (VFloat (a / z))).
    { unfold Name. by rewrite lookup_insert_eq. }
    set (s' := State (<["fCO2" := VFloat (a / z)]> (vars s)) (stdout s)).
    destruct (vars s !! "print") as [w|] eqn:Hprint.
    + apply (exec_print_shadowed _ _ _ s' _ w _ Hv Hl).
      cbn [vars s']. by rewrite lookup_insert_ne.
    + rewrite (exec_print_ok _ _ _ s' _ _ Hv Hl); [reflexivity|].
      cbn [vars s']. by rewrite lookup_insert_ne.
Qed.

Lemma cell7_divides_by_inflow_witness :
  exec cell7 (State (<["mCO2_accum" := VFloat 1]> {["mCO2_in" := VFloat (-0)]}) "")
  = Raise ZeroDivisionError.
Proof.
  rewrite (cell7_divides_by_inflow _ 1 (-0)); vm_compute; reflexivity.
Defined.

(** ** Cells run out of order *)

(** X6: Cells 5, 6 and 7 read names bound by earlier cells.  On a state where
    such a name is missing the cell raises [NameError] for it, binds
    nothing and prints nothing; operands are looked up left to right, so
    the left name is the one reported when both are missing. *)
Theorem cells_need_their_inputs (s : state) :
  (vars s !! "wCO2_accum" = None ->
   exec cell5 s = Raise (NameError "wCO2_accum")) /\
  (forall v, vars s !! "wCO2_accum" = Some v -> vars s !! "mAir" = None ->
   exec cell5 s = Raise (NameError "mAir")) /\
  (vars s !! "mCO2_in" = None ->
   exec cell6 s = Raise (NameError "mCO2_in")) /\
  (forall v, vars s !! "mCO2_in" = Some v -> vars s !! "mCO2_accum" = None ->
   exec cell6 s = Raise (NameError "mCO2_accum")) /\
  (vars s !! "mCO2_accum" = None ->
   exec cell7 s = Raise (NameError "mCO2_accum")) /\
  (forall v, vars s !! "mCO2_accum" = Some v -> vars s !! "mCO2_in" = None ->
   exec cell7 s = Raise (NameError "mCO2_in")).
Proof.
  split_all; intros;
    apply exec_assign_raise; unfold BinOp, Name;
    repeat match goal with H : _ !! _ = _ |- _ => rewrite H; clear H end;
    reflexivity.
Qed.

(** After cells 2 and 3 only, cell 5 misses [mAir]. *)
Lemma cells_need_their_inputs_witness :
  exec cell5 (State (<["wCO2_accum" := VFloat 1]> numpy) "")
  = Raise (NameError "mAir").
Proof.
  apply (proj1 (proj2 (cells_need_their_inputs _)) (VFloat 1));
    vm_compute; reflexivity.
Defined.

(** ** Order of the input cells *)

(** A program that runs from the fresh kernel runs over any namespace
    that holds numpy's [pi] and leaves [print] to the builtin. *)
Lemma program_over (p : list stmt) (o1 : string) (m : gmap string value) (o : string) :
  Forall stmt_monotone p ->
  match exec p initial with
  | Ok s1 => Some (map_to_list (vars s1), stdout s1)
  | Raise _ => None
  end = Some (map_to_list (vars final), o1) ->
  m !! "pi" = Some (VFloat pi) ->
  m !! "print" = None ->
  exec p (State m o) = Ok (State (vars final ∪ m) (o +:+ o1)).
Proof.
  intros Hmono Hrun Hpi Hprint.
  destruct (exec p initial) as [s1|e] eqn:E; [|discriminate Hrun].
  destruct (exec_extend p Hmono initial s1 E) as (out & Hout & Hext).
  change (stdout s1 = out) in Hout.
  apply Some_inj in Hrun.
  assert (vars s1 = vars final) as Hv.
  { apply map_to_list_inj.
    change (map_to_list (vars s1)) with (fst (map_to_list (vars s1), stdout s1)).
    by rewrite Hrun. }
  assert (stdout s1 = o1) as Ho by exact (f_equal snd Hrun).
  specialize (Hext m o Hprint).
  change (vars initial) with ({["pi" := VFloat pi]} : gmap string value) in Hext.
  rewrite <- insert_union_singleton_l, (insert_id m "pi" _ Hpi) in Hext.
  by rewrite Hext, Hv, <- Hout, Ho.
Qed.

(** X7: Cells 2, 3 and 4 set up the data and read nothing from one
    another: run in any of their six orders before cells 5 to 7, over
    any state that holds numpy's [pi] and leaves [print] to the builtin,
    they lead to the same bindings as the notebook run top to bottom. *)
Theorem input_cells_in_any_order (cs : list (list stmt)) (s : state) :
  cs ≡ₚ [cell2; cell3; cell4] ->
  vars s !! "pi" = Some (VFloat pi) ->
  vars s !! "print" = None ->
  exists out : string,
    exec (concat cs ++ cell5 ++ cell6 ++ cell7) s
    = Ok (State (vars final ∪ vars s) (stdout s +:+ out)).
Proof.
  intros Hperm Hpi Hprint. destruct s as [m o].
  exists (match exec (concat cs ++ cell5 ++ cell6 ++ cell7) initial with
          | Ok s1 => stdout s1
          | Raise _ => ""
          end).
  symmetry in Hperm. apply permutations_Permutation in Hperm.
  assert (permutations [cell2; cell3; cell4]
          = [[cell2; cell3; cell4]; [cell3; cell2; cell4]; [cell3; cell4; cell2];
             [cell2; cell4; cell3]; [cell4; cell2; cell3]; [cell4; cell3; cell2]])
    as Hp by reflexivity.
  rewrite Hp in Hperm.
  repeat (apply elem_of_cons in Hperm as [-> | Hperm]);
    [ .. | by apply elem_of_nil in Hperm ];
    (apply program_over; [solve_monotone | | exact Hpi | exact Hprint]);
    vm_compute; reflexivity.
Qed.

(** Cell 4 first, then cell 2, then cell 3. *)
Lemma input_cells_in_any_order_witness :
  exists out : string,
    exec (concat [cell4; cell2; cell3] ++ cell5 ++ cell6 ++ cell7) initial
    = Ok (State (vars final ∪ vars initial) (stdout initial +:+ out)).
Proof.
  apply (input_cells_in_any_order [cell4; cell2; cell3] initial).
  - exact (Permutation_cons_append [cell2; cell3] cell4).
  - vm_compute. reflexivity.
  - vm_compute. reflexivity.
Defined.
